(** * Textual: styles, the colour system and visual discovery

  A shallow embedding of [src/textual/visual.py] (the [Style] value, its
  composition operator, [without_color], [Style.combine] and the
  [textualize] discovery function) and of [src/textual/design.py]
  ([ColorSystem], its [shades] property and [generate]), followed by the
  properties the specification states about them.

  Python [float]s are IEEE 754 binary64 numbers and are embedded as Rocq's
  primitive floats; [dict[str, str]] is a [gmap string string]; Python
  generators are the lists of the values they yield, in order; a call that
  may raise returns an [option] or a [result]. *)

From Stdlib Require Import ZArith Ascii String PrimFloat FloatOps SpecFloat Uint63.
From stdpp Require Import base option list strings gmap pretty.

Set Warnings "-inexact-float,-register-all,-clear-no-such-hyp".
Set Default Proof Using "Type*".

Local Open Scope Z_scope.

(** ** Python's numbers *)

(** The conversion Python applies to an [int] operand of a mixed
  [int]/[float] operation (exact for the small integers used here). *)
Definition float_of_int (n : Z) : float :=
  if n <? 0 then (- of_uint63 (Uint63.of_Z (- n)))%float
  else of_uint63 (Uint63.of_Z n).

(** [range(lo, hi)]. *)
Definition range (lo hi : Z) : list Z := seqZ lo (hi - lo).

(** [str(n)] for an [int]. *)
Definition str (n : Z) : string := pretty n.

(** [a or b] where [a] is [None] or an object that is always truthy. *)
Definition py_or {A} (a : option A) (b : A) : A :=
  match a with
  | Some x => x
  | None => b
  end.

(** ** Module constants of [design.py], lines 13-26 *)

Definition NUMBER_OF_SHADES : Z := 3.
Definition DEFAULT_DARK_BACKGROUND : string := "#1e1e1e".
Definition DEFAULT_DARK_SURFACE : string := "#272727".
Definition DEFAULT_LIGHT_SURFACE : string := "#f5f5f5".
Definition DEFAULT_LIGHT_BACKGROUND : string := "#efefef".

(** ** [textual.color.Color]: the interface the two modules use

  [textual/color.py] is not among the sources.  Everything
  [visual.py] and [design.py] call on a [Color] is collected in one
  interface, and the embedding below is written over an arbitrary
  implementation of it.  [Color] is a value type whose instances are
  always truthy, so [x or y] on an optional colour picks [y] exactly when
  [x] is [None].  [blend] is only ever called with its [alpha] keyword
  given, [lighten] only with its amount.  The one law of the interface
  says that [Color.parse] accepts the four built-in defaults of
  [design.py], which are well-formed [#rrggbb] colours. *)
Class ColorOps := {
  Color : Type;
  (** [Color.parse(text)]; [None] stands for [InvalidColorError]. *)
  parse : string → option Color;
  WHITE : Color;
  TRANSPARENT : Color;
  (** [color.ansi]: the fixed-palette index, if any. *)
  ansi : Color → option Z;
  (** [color.hex] *)
  hex : Color → string;
  (** [color.is_transparent] *)
  is_transparent : Color → bool;
  (** [color.inverse] *)
  inverse : Color → Color;
  (** [color.clamped] *)
  clamped : Color → Color;
  (** [color.with_alpha(alpha)] *)
  with_alpha : Color → float → Color;
  (** [color.lighten(amount)] *)
  lighten : Color → float → Color;
  (** [color.blend(destination, factor, alpha=alpha)] *)
  blend : Color → Color → float → float → Color;
  (** [color.get_contrast_text(alpha)] *)
  get_contrast_text : Color → float → Color;
  (** [background + foreground]: alpha compositing, [Color.__add__]. *)
  color_add : Color → Color → Color;
  parse_defaults :
    Forall (λ text, is_Some (parse text))
      [DEFAULT_DARK_BACKGROUND; DEFAULT_DARK_SURFACE;
       DEFAULT_LIGHT_SURFACE; DEFAULT_LIGHT_BACKGROUND];
}.

(** ** [visual.py] *)

(** *** Python objects, as far as [textualize] inspects them *)

Inductive exn :=
  | TypeError
  | Exception (message : string).

Inductive result (A : Type) :=
  | Ok (a : A)
  | Raised (e : exn).
Arguments Ok {A} a.
Arguments Raised {A} e.

Section objects.
(** The instances of (subclasses of) the abstract class [Visual]. *)
Variable Visual : Type.

(** An object is [None], or it is described by three observations:
    whether it is an instance of [Visual]; what attribute lookup by name
    does: it finds a value, it fails with [AttributeError] ([Ok None]), or a
    property or [__getattr__] raises another exception; and what calling the
    object with no argument does ([None]: the object is not callable). *)
Inductive object :=
  | PyNone
  | PyObject (as_visual : option Visual)
             (attributes : string → result (option object))
             (call : option (result object)).

(** Attribute lookup; [Ok None] stands for [AttributeError].  [None] has
    no attribute called [textualize]. *)
Definition attribute (obj : object) (name : string) : result (option object) :=
  match obj with
  | PyNone => Ok None
  | PyObject _ attributes _ => attributes name
  end.

(** [getattr(obj, name, default)]: the default replaces an
    [AttributeError] and no other exception. *)
Definition getattr (obj : object) (name : string) (default : object) :
    result object :=
  match attribute obj name with
  | Raised e => Raised e
  | Ok found => Ok (py_or found default)
  end.

(** [f()] *)
Definition call0 (f : object) : result object :=
  match f with
  | PyNone => Raised TypeError
  | PyObject _ _ call =>
      match call with
      | Some outcome => outcome
      | None => Raised TypeError
      end
  end.

(** [isinstance(obj, Visual)], with the instance when it holds. *)
Definition isinstance_Visual (obj : object) : option Visual :=
  match obj with
  | PyNone => None
  | PyObject as_visual _ _ => as_visual
  end.

Definition is_None (obj : object) : bool :=
  match obj with
  | PyNone => true
  | PyObject _ _ _ => false
  end.

(** [textualize(obj)], visual.py lines 23-38. *)
Definition textualize (obj : object) : result (option Visual) :=
  match getattr obj "textualize" PyNone with
  | Raised e => Raised e
  | Ok textualize =>
      if is_None textualize then Ok None
      else
        match call0 textualize with
        | Raised e => Raised e
        | Ok visual =>
            match isinstance_Visual visual with
            | None => Ok None
            | Some v => Ok (Some v)
            end
        end
  end.
End objects.

Arguments PyNone {Visual}.
Arguments PyObject {Visual} as_visual attributes call.

(** *** [Style] *)

Module Style.
Section style.
Context `{ColorOps}.

(** The frozen dataclass [Style], visual.py lines 43-54.  A tri-state
    attribute is an [option bool]; [_meta] is a [bytes] value. *)
Record t := Style {
  background : Color;
  foreground : Color;
  bold : option bool;
  dim : option bool;
  italic : option bool;
  underline : option bool;
  strike : option bool;
  link : option string;
  _meta : option (list Byte.byte);
}.

(** [Style()] with every field at its default. *)
Definition default : t :=
  Style TRANSPARENT TRANSPARENT None None None None None None None.

(** [x if y is None else y] *)
Definition if_none {A} (x y : option A) : option A :=
  match y with
  | None => x
  | Some _ => y
  end.

(** [Style.__add__], visual.py lines 65-80, on two styles.  The
    [lru_cache] decorator memoises a pure function and is not visible in
    its results. *)
Definition add (self other : t) : t :=
  Style
    (color_add (background self) (background other))
    (if is_transparent (foreground other) then foreground self
     else foreground other)
    (if_none (bold self) (bold other))
    (if_none (dim self) (dim other))
    (if_none (italic self) (italic other))
    (if_none (underline self) (underline other))
    (if_none (strike self) (strike other))
    (if_none (link self) (link other))
    (if_none (_meta self) (_meta other)).

(** [Style.without_color], visual.py lines 96-105: the constructor is
    called with the keywords [bold], [dim], [italic], [strike], [link] and
    [_meta]; the other fields take their defaults. *)
Definition without_color (self : t) : t :=
  Style
    (background default)
    (foreground default)
    (bold self)
    (dim self)
    (italic self)
    (underline default)
    (strike self)
    (link self)
    (_meta self).

(** An iterator over styles is the list of the items it has yet to
    yield; [next] takes the first one, or raises [StopIteration]. *)
Definition next (it : list t) : option (t * list t) :=
  match it with
  | [] => None
  | s :: it' => Some (s, it')
  end.

(** [sum(iterable, start)]: [start + x1 + x2 + ...], one item at a time. *)
Fixpoint sum (it : list t) (start : t) : t :=
  match it with
  | [] => start
  | item :: it' => sum it' (add start item)
  end.

(** [Style.combine], visual.py lines 107-111.  The second argument of
    [sum] is evaluated before [sum] runs, so the first style has left the
    iterator when the summation starts.  [None]: [StopIteration]. *)
Definition combine (styles : list t) : option t :=
  let iter_styles := styles in
  '(first, iter_styles) ← next iter_styles;
  Some (sum iter_styles first).
End style.
End Style.

(** ** [design.py] *)

Module ColorSystem.
Section color_system.
Context `{ColorOps}.

(** The attributes [ColorSystem.__init__] sets, design.py lines 74-87. *)
Record t := ColorSystem {
  primary : Color;
  secondary : option Color;
  warning : option Color;
  error : option Color;
  success : option Color;
  accent : option Color;
  foreground : option Color;
  background : option Color;
  surface : option Color;
  panel : option Color;
  boost : option Color;
  dark : bool;
  luminosity_spread : float;
  text_alpha : float;
}.

(** The local function [parse] of [__init__], lines 69-72; the outer
    [option] is the exception of [Color.parse]. *)
Definition parse_optional (color : option string) : option (option Color) :=
  match color with
  | None => Some None
  | Some color => c ← parse color; Some (Some c)
  end.

(** [ColorSystem.__init__], design.py lines 52-87; [None] when a colour
    does not parse. *)
Definition init (primary : string)
    (secondary warning error success accent foreground background surface
     panel boost : option string)
    (dark : bool) (luminosity_spread text_alpha : float) : option t :=
  primary ← parse primary;
  secondary ← parse_optional secondary;
  warning ← parse_optional warning;
  error ← parse_optional error;
  success ← parse_optional success;
  accent ← parse_optional accent;
  foreground ← parse_optional foreground;
  background ← parse_optional background;
  surface ← parse_optional surface;
  panel ← parse_optional panel;
  boost ← parse_optional boost;
  Some (ColorSystem primary secondary warning error success accent foreground
          background surface panel boost dark luminosity_spread text_alpha).
End color_system.
End ColorSystem.

(** The colours [generate] works with once the fallbacks are resolved:
    its local variables after design.py line 133. *)
Module Resolved.
Section resolved.
Context `{ColorOps}.

Record t := Resolved {
  primary : Color;
  secondary : Color;
  warning : Color;
  error : Color;
  success : Color;
  accent : Color;
  background : Color;
  surface : Color;
  foreground : Color;
  boost : Color;
  panel : Color;
}.
End resolved.
End Resolved.

Section design.
Context `{ColorOps}.

(** The class attribute [ColorSystem.COLOR_NAMES], design.py lines 37-50. *)
Definition COLOR_NAMES : list string :=
  [ "primary"; "secondary"; "background"; "primary-background";
    "secondary-background"; "surface"; "panel"; "boost"; "warning"; "error";
    "success"; "accent" ].

(** The property [ColorSystem.shades], design.py lines 89-99: the names
    it yields, in order. *)
Definition shades (self : ColorSystem.t) : list string :=
  color ← COLOR_NAMES;
  shade_number ← range (- NUMBER_OF_SHADES) (NUMBER_OF_SHADES + 1);
  if shade_number <? 0 then
    [color +:+ "-darken-" +:+ str (Z.abs shade_number)]
  else if 0 <? shade_number then
    [color +:+ "-lighten-" +:+ str shade_number]
  else
    [color].

(** [x or e] where evaluating [e] may raise; [e] is only evaluated when
    [x] is [None]. *)
Definition py_or_else {A} (x : option A) (e : option A) : option A :=
  match x with
  | Some c => Some c
  | None => e
  end.

(** [generate], design.py lines 108-133: the fallback chain. *)
Definition resolve (self : ColorSystem.t) : option Resolved.t :=
  let primary := ColorSystem.primary self in
  let secondary := py_or (ColorSystem.secondary self) primary in
  let warning := py_or (ColorSystem.warning self) primary in
  let error := py_or (ColorSystem.error self) secondary in
  let success := py_or (ColorSystem.success self) secondary in
  let accent := py_or (ColorSystem.accent self) primary in
  let dark := ColorSystem.dark self in
  '(background, surface) ←
    (if dark then
       background ← py_or_else (ColorSystem.background self)
                               (parse DEFAULT_DARK_BACKGROUND);
       surface ← py_or_else (ColorSystem.surface self)
                            (parse DEFAULT_DARK_SURFACE);
       Some (background, surface)
     else
       background ← py_or_else (ColorSystem.background self)
                               (parse DEFAULT_LIGHT_BACKGROUND);
       surface ← py_or_else (ColorSystem.surface self)
                            (parse DEFAULT_LIGHT_SURFACE);
       Some (background, surface));
  let foreground := py_or (ColorSystem.foreground self) (inverse background) in
  let boost :=
    py_or (ColorSystem.boost self)
          (with_alpha (get_contrast_text background 1.0) 0.04) in
  let panel :=
    match ColorSystem.panel self with
    | None =>
        let panel := blend surface primary 0.1 (float_of_int 1) in
        if dark then color_add panel boost else panel
    | Some panel => panel
    end in
  Some (Resolved.Resolved primary secondary warning error success accent
          background surface foreground boost panel).

(** The local generator [luminosity_range], design.py lines 137-151. *)
Definition luminosity_range (spread : float) : list (string * float) :=
  let luminosity_step := (spread / float_of_int 2)%float in
  n ← range (- NUMBER_OF_SHADES) (NUMBER_OF_SHADES + 1);
  let label :=
    if n <? 0 then "-darken"
    else if 0 <? n then "-lighten"
    else "" in
  [(label +:+ (if n =? 0 then "" else "-" +:+ str (Z.abs n)),
    (float_of_int n * luminosity_step)%float)].

(** The list [COLORS], design.py lines 154-168. *)
Definition COLORS (r : Resolved.t) : list (string * Color) :=
  [ ("primary", Resolved.primary r);
    ("secondary", Resolved.secondary r);
    ("primary-background", Resolved.primary r);
    ("secondary-background", Resolved.secondary r);
    ("background", Resolved.background r);
    ("foreground", Resolved.foreground r);
    ("panel", Resolved.panel r);
    ("boost", Resolved.boost r);
    ("surface", Resolved.surface r);
    ("warning", Resolved.warning r);
    ("error", Resolved.error r);
    ("success", Resolved.success r);
    ("accent", Resolved.accent r) ].

(** The set [DARK_SHADES], design.py line 171. *)
Definition DARK_SHADES : gset string :=
  {[ "primary-background"; "secondary-background" ]}.

(** The body of the inner loop, design.py lines 177-187: one assignment
    to [colors]. *)
Definition shade (background : Color) (spread : float) (is_dark_shade : bool)
    (name : string) (color : Color) (colors : gmap string string)
    (item : string * float) : gmap string string :=
  let '(shade_name, luminosity_delta) := item in
  if ansi color is Some _ then
    <[name +:+ shade_name := hex color]> colors
  else if is_dark_shade then
    let dark_background := blend background color 0.15 1.0 in
    let shade_color :=
      clamped (blend dark_background WHITE (spread + luminosity_delta) 1.0) in
    <[name +:+ shade_name := hex shade_color]> colors
  else
    let shade_color := lighten color luminosity_delta in
    <[name +:+ shade_name := hex shade_color]> colors.

(** The loop over [COLORS], design.py lines 173-187. *)
Definition shade_loop (dark : bool) (luminosity_spread : float)
    (background : Color) (COLORS : list (string * Color))
    (colors : gmap string string) : gmap string string :=
  foldl
    (λ colors '(name, color),
       let is_dark_shade := dark && bool_decide (name ∈ DARK_SHADES) in
       let spread := luminosity_spread in
       foldl (shade background spread is_dark_shade name color) colors
         (luminosity_range spread))
    colors COLORS.

(** [generate], design.py lines 135-220, from the resolved colours. *)
Definition palette (self : ColorSystem.t) (r : Resolved.t) : gmap string string :=
  let dark := ColorSystem.dark self in
  let luminosity_spread := ColorSystem.luminosity_spread self in
  let accent := Resolved.accent r in
  let surface := Resolved.surface r in
  let boost := Resolved.boost r in
  let foreground := Resolved.foreground r in
  let colors : gmap string string := ∅ in
  let colors :=
    shade_loop dark luminosity_spread (Resolved.background r) (COLORS r) colors in
  let colors :=
    if ansi foreground is None then
      let colors := <["text" := "auto 87%"]> colors in
      let colors := <["text-muted" := "auto 60%"]> colors in
      <["text-disabled" := "auto 38%"]> colors
    else
      let colors := <["text" := "ansi_default"]> colors in
      let colors := <["text-muted" := "ansi_default"]> colors in
      <["text-disabled" := "ansi_default"]> colors in
  let colors := <["highlight-cursor" := hex accent]> colors in
  let colors :=
    <["highlight-cursor-blurred" := hex (with_alpha accent 0.3)]> colors in
  let colors := <["border" := hex accent]> colors in
  let colors := <["border-blurred" := hex surface]> colors in
  let colors := <["highlight-hover" := hex (with_alpha boost 0.05)]> colors in
  let colors :=
    <["surface-active" :=
        hex (lighten surface (ColorSystem.luminosity_spread self / 3.5))]>
      colors in
  colors.

(** [ColorSystem.generate], design.py lines 101-220; [None] when parsing
    a default raises. *)
Definition generate (self : ColorSystem.t) : option (gmap string string) :=
  r ← resolve self;
  Some (palette self r).
End design.

(** ** A reference implementation of the [Color] interface

    Used to evaluate the embedding on concrete colour systems. *)

Module ColorModel.
Local Open Scope float_scope.

(** Modelled from the spec: [textual.color.Color], whose source file
    [textual/color.py] is missing.  Section 3: red, green and blue channels
    (kept as integers normalised to the range 0..255 of the [#rrggbb]
    notation), an alpha between 0 and 1, and an optional fixed-palette
    index. *)
Record color := RGBA {
  red : Z;
  green : Z;
  blue : Z;
  alpha : float;
  palette_index : option Z;
}.

(** [int(x)] on a float: truncation toward zero (0 where Python raises). *)
Definition trunc (x : float) : Z :=
  match Prim2SF x with
  | S754_finite negative m e =>
      let magnitude :=
        (if 0 <=? e then Z.pos m * 2 ^ e else Z.pos m / 2 ^ (- e))%Z in
      if negative then (- magnitude)%Z else magnitude
  | _ => 0%Z
  end.

Definition clamp (x lo hi : Z) : Z := Z.max lo (Z.min hi x).

Definition clamp_float (x lo hi : float) : float :=
  if x <? lo then lo else if hi <? x then hi else x.

Definition is_palette (c : color) : bool := bool_decide (is_Some (palette_index c)).

(** Modelled from the spec: the closed set of terminal-palette tokens of
    section 6, whose members the spec does not list: the default colour
    and the sixteen standard palette entries. *)
Definition palette_tokens : list (string * Z) :=
  [ ("ansi_default", -1); ("ansi_black", 0); ("ansi_red", 1);
    ("ansi_green", 2); ("ansi_yellow", 3); ("ansi_blue", 4);
    ("ansi_magenta", 5); ("ansi_cyan", 6); ("ansi_white", 7);
    ("ansi_bright_black", 8); ("ansi_bright_red", 9);
    ("ansi_bright_green", 10); ("ansi_bright_yellow", 11);
    ("ansi_bright_blue", 12); ("ansi_bright_magenta", 13);
    ("ansi_bright_cyan", 14); ("ansi_bright_white", 15) ]%Z.

Definition hex_digit (c : ascii) : option Z :=
  let n := Z.of_N (N_of_ascii c) in
  (if (48 <=? n) && (n <=? 57) then Some (n - 48)
   else if (97 <=? n) && (n <=? 102) then Some (n - 87)
   else if (65 <=? n) && (n <=? 70) then Some (n - 55)
   else None)%Z.

Definition hex_char (v : Z) : ascii :=
  ascii_of_N (Z.to_N (if v <? 10 then v + 48 else v + 87)%Z).

(** Two lower-case hexadecimal digits of a byte. *)
Definition hex_byte (v : Z) : string :=
  String (hex_char (v / 16)) (String (hex_char (v mod 16)) EmptyString).

Definition opaque_rgb (r g b : Z) : color := RGBA r g b 1.0 None.

(** Modelled from the spec: [Color.parse], section 4.1: [#rgb],
    [#rrggbb] and the palette tokens; anything else is an
    [InvalidColorError]. *)
Definition model_parse (text : string) : option color :=
  match list_find (λ token, bool_decide (token.1 = text)) palette_tokens with
  | Some (_, (_, index)) => Some (RGBA 0 0 0 1.0 (Some index))
  | None =>
      match text with
      | String "#" digits =>
          match mapM hex_digit (list_ascii_of_string digits) with
          | Some [r; g; b] =>
              Some (opaque_rgb (17 * r) (17 * g) (17 * b))
          | Some [r1; r0; g1; g0; b1; b0] =>
              Some (opaque_rgb (16 * r1 + r0) (16 * g1 + g0) (16 * b1 + b0))
          | _ => None
          end
      | _ => None
      end
  end%Z.

(** Modelled from the spec: [Color.hex]: the palette token of a
    fixed-palette colour, else the hex string of the clamped channels, with
    an alpha byte when the colour is not opaque. *)
Definition model_hex (c : color) : string :=
  match palette_index c with
  | Some index =>
      match list_find (λ token, bool_decide (token.2 = index)) palette_tokens with
      | Some (_, (token, _)) => token
      | None => "ansi_default"
      end
  | None =>
      let rgb :=
        "#" +:+ hex_byte (clamp (red c) 0 255) +:+ hex_byte (clamp (green c) 0 255)
            +:+ hex_byte (clamp (blue c) 0 255) in
      let a := clamp_float (alpha c) 0.0 1.0 in
      if a =? 1.0 then rgb else rgb +:+ hex_byte (trunc (a * 255.0))
  end.

(** Modelled from the spec: fully transparent colours. *)
Definition model_is_transparent (c : color) : bool :=
  (alpha c =? 0.0) && negb (is_palette c).

(** Modelled from the spec: [Color.with_alpha]. *)
Definition model_with_alpha (c : color) (a : float) : color :=
  RGBA (red c) (green c) (blue c) a (palette_index c).

(** Modelled from the spec: [Color.clamped], section 4.1: channels and
    alpha projected back into their legal ranges. *)
Definition model_clamped (c : color) : color :=
  if is_palette c then c
  else RGBA (clamp (red c) 0 255) (clamp (green c) 0 255) (clamp (blue c) 0 255)
         (clamp_float (alpha c) 0.0 1.0) None.

(** Linear interpolation of one channel. *)
Definition lerp (x y : Z) (factor : float) : Z :=
  trunc (float_of_int x + (float_of_int y - float_of_int x) * factor).

(** Modelled from the spec: [Color.blend], section 4.1: linear
    interpolation toward the destination, with the alpha given.  Terminal
    palette entries are opaque to blending (sections 3, 4.1 and 8): blending
    toward a fixed-palette colour gives that colour, and a fixed-palette
    colour blended toward another colour is returned unchanged. *)
Definition model_blend (c destination : color) (factor a : float) : color :=
  if is_palette destination then destination
  else if is_palette c then c
  else RGBA (lerp (red c) (red destination) factor)
         (lerp (green c) (green destination) factor)
         (lerp (blue c) (blue destination) factor) a None.

(** Modelled from the spec: [Color.lighten], section 4.1: the
    luminosity coordinate is shifted by the amount, the chroma kept, and the
    result clamped; a fixed-palette colour is returned unchanged.  The
    luminosity coordinate is taken to be the luma of a luma-chroma space,
    where the shift adds the same amount to each channel. *)
Definition model_lighten (c : color) (amount : float) : color :=
  if is_palette c then c
  else
    let shift := trunc (amount * 255.0) in
    model_clamped
      (RGBA (red c + shift) (green c + shift) (blue c + shift) (alpha c) None).

(** Modelled from the spec: [Color.inverse]. *)
Definition model_inverse (c : color) : color :=
  if is_palette c then c
  else RGBA (255 - red c) (255 - green c) (255 - blue c) (alpha c) None.

Definition model_WHITE : color := opaque_rgb 255 255 255.
Definition model_BLACK : color := opaque_rgb 0 0 0.
Definition model_TRANSPARENT : color := RGBA 0 0 0 0.0 None.

(** Modelled from the spec: [Color.get_contrast_text], section 4.1:
    white on a dark colour and black on a light one, at the given
    opacity. *)
Definition model_get_contrast_text (c : color) (a : float) : color :=
  if is_palette c then c
  else
    let brightness := (299 * red c + 587 * green c + 114 * blue c)%Z in
    model_with_alpha
      (if (brightness <? 127500)%Z then model_WHITE else model_BLACK) a.

(** Modelled from the spec: [Color.__add__], section 4.1: the second
    colour painted over the first, that is the first blended toward the
    second by the alpha of the second; a fully transparent colour leaves the
    first one unchanged, and fixed-palette colours are opaque to it as they
    are to [blend]. *)
Definition model_add (c over : color) : color :=
  if model_is_transparent over then c
  else model_blend c over (alpha over) 1.0.

#[export] Instance model : ColorOps := {|
  Color := color;
  parse := model_parse;
  WHITE := model_WHITE;
  TRANSPARENT := model_TRANSPARENT;
  ansi := palette_index;
  hex := model_hex;
  is_transparent := model_is_transparent;
  inverse := model_inverse;
  clamped := model_clamped;
  with_alpha := model_with_alpha;
  lighten := model_lighten;
  blend := model_blend;
  get_contrast_text := model_get_contrast_text;
  color_add := model_add;
  parse_defaults :=
    ltac:(repeat constructor; vm_compute; eexists; reflexivity);
|}.
End ColorModel.

(** ** Vocabulary of the specification *)

Section vocabulary.
Context `{ColorOps}.

(** The shade indices, darkest to lightest. *)
Definition shade_indices : list Z := [-3; -2; -1; 0; 1; 2; 3].

(** The suffix of the shade with index [n]: [-darken-3] .. [-darken-1],
    none, [-lighten-1] .. [-lighten-3]. *)
Definition shade_suffix (n : Z) : string :=
  if n <? 0 then "-darken-" +:+ str (- n)
  else if n =? 0 then ""
  else "-lighten-" +:+ str n.

(** The luminosity delta of the shade with index [n]. *)
Definition shade_delta (spread : float) (n : Z) : float :=
  (float_of_int n * (spread / float_of_int 2))%float.

(** The thirteen shaded colour names. *)
Definition shaded_names : list string :=
  [ "primary"; "secondary"; "primary-background"; "secondary-background";
    "background"; "foreground"; "panel"; "boost"; "surface"; "warning";
    "error"; "success"; "accent" ].

(** The derived tokens. *)
Definition derived_tokens : list string :=
  [ "text"; "text-muted"; "text-disabled"; "highlight-cursor";
    "highlight-cursor-blurred"; "border"; "border-blurred";
    "highlight-hover"; "surface-active" ].

(** The seven shade keys of one colour name. *)
Definition shade_keys (name : string) : list string :=
  (λ n, name +:+ shade_suffix n) <$> shade_indices.

(** The shade of a background colour in dark mode: the colour blended 15%
    into the background, the result blended toward white, then clamped. *)
Definition dark_shade (background color : Color) (factor : float) : Color :=
  clamped (blend (blend background color 0.15 1.0) WHITE factor 1.0).

(** The string the loop body stores for one shade. *)
Definition shade_hex (background : Color) (spread : float)
    (is_dark_shade : bool) (color : Color) (luminosity_delta : float) : string :=
  if ansi color is Some _ then hex color
  else if is_dark_shade then
    hex (dark_shade background color (spread + luminosity_delta))
  else hex (lighten color luminosity_delta).

(** The assignments of the shade loop, in order. *)
Definition shade_entries (dark : bool) (spread : float) (background : Color)
    (COLORS : list (string * Color)) : list (string * string) :=
  '(name, color) ← COLORS;
  '(shade_name, luminosity_delta) ← luminosity_range spread;
  [(name +:+ shade_name,
    shade_hex background spread (dark && bool_decide (name ∈ DARK_SHADES))
      color luminosity_delta)].

(** The assignments after the loop, in order. *)
Definition derived_entries (self : ColorSystem.t) (r : Resolved.t) :
    list (string * string) :=
  let text token := if ansi (Resolved.foreground r) is None then token
                    else "ansi_default" in
  [ ("text", text "auto 87%");
    ("text-muted", text "auto 60%");
    ("text-disabled", text "auto 38%");
    ("highlight-cursor", hex (Resolved.accent r));
    ("highlight-cursor-blurred", hex (with_alpha (Resolved.accent r) 0.3));
    ("border", hex (Resolved.accent r));
    ("border-blurred", hex (Resolved.surface r));
    ("highlight-hover", hex (with_alpha (Resolved.boost r) 0.05));
    ("surface-active",
     hex (lighten (Resolved.surface r)
            (ColorSystem.luminosity_spread self / 3.5))) ].

(** Every assignment [generate] makes to [colors], in order. *)
Definition entries (self : ColorSystem.t) (r : Resolved.t) :
    list (string * string) :=
  shade_entries (ColorSystem.dark self) (ColorSystem.luminosity_spread self)
    (Resolved.background r) (COLORS r)
  ++ derived_entries self r.

(** [colors[key] = value] for each pair of a list, in order. *)
Definition assign_all (colors : gmap string string)
    (l : list (string * string)) : gmap string string :=
  foldl (λ colors kv, <[kv.1 := kv.2]> colors) colors l.

(** The keys of a palette. *)
Definition palette_keys : list string :=
  (shaded_names ≫= shade_keys) ++ derived_tokens.
End vocabulary.

(** ** Example values, over the reference implementation *)

Module Examples.
Import ColorModel.
Local Open Scope float_scope.

(** [Color.parse("#004578")] and [Color.parse("ansi_red")]. *)
Definition blue : color := opaque_rgb 0 69 120.
Definition ansi_red : color := RGBA 0 0 0 1.0 (Some 1%Z).

(** [ColorSystem(primary, dark=dark)] once the primary colour is parsed. *)
Definition system (primary : color) (dark : bool) : ColorSystem.t :=
  ColorSystem.ColorSystem primary None None None None None None None None
    None None dark 0.15 0.95.

Definition light : ColorSystem.t := system blue false.
Definition dark : ColorSystem.t := system blue true.
Definition dark_ansi : ColorSystem.t := system ansi_red true.


Definition dark_resolved : Resolved.t :=
  Resolved.Resolved blue blue blue blue blue blue
    (opaque_rgb 30 30 30) (opaque_rgb 39 39 39) (opaque_rgb 225 225 225)
    (RGBA 255 255 255 0.04 None) (opaque_rgb 43 50 55).

Definition dark_ansi_resolved : Resolved.t :=
  Resolved.Resolved ansi_red ansi_red ansi_red ansi_red ansi_red ansi_red
    (opaque_rgb 30 30 30) (opaque_rgb 39 39 39) (opaque_rgb 225 225 225)
    (RGBA 255 255 255 0.04 None) ansi_red.

(** A style that only sets [underline]: [Style(underline=True)]. *)
Definition underlined : Style.t :=
  Style.Style model_TRANSPARENT model_TRANSPARENT None None None (Some true)
    None None None.

(** Objects for [textualize], with strings as visuals: an object without
    attributes, one whose [textualize] method returns a visual, and one
    whose [textualize] method returns an object that is not a visual. *)
Definition plain : object string := PyObject None (λ _, Ok None) None.

Definition a_visual : object string :=
  PyObject (Some "visual") (λ _, Ok None) None.

Definition method (returns : object string) : object string :=
  PyObject None (λ _, Ok None) (Some (Ok returns)).

Definition with_textualize (returns : object string) : object string :=
  PyObject None
    (λ name, if bool_decide (name = "textualize")
             then Ok (Some (method returns))
             else Ok None)
    None.
End Examples.

(** ** [show_design], design.py lines 223-249 *)

(** The exceptions [show_design] can meet: a missing key of [colors], and
    the error of [Color.parse]. *)
Inductive design_exn :=
  | KeyError (key : string)
  | InvalidColorError.

(** [Padding(Text(text), pad, style=style)] of [rich.padding], as the
    values it is built from. *)
Record Padding := {
  padding_text : string;
  padding_pad : Z;
  padding_style : string;
}.

(** A [rich.table.Table]: its columns, each a header and a justification,
    and its rows of cells, each cell a group of renderables. *)
Record Table := {
  table_columns : list (string * string);
  table_rows : list (list (list Padding));
}.

Section show_design.
Context `{ColorOps}.

(** [color.hex6], the one colour operation [show_design] needs on top of
    those of [generate]. *)
Variable hex6 : Color → string.

(** The loop of [make_shades], design.py lines 237-243, over the names
    still to come.  The [group] decorator collects what the generator
    yields. *)
Fixpoint make_shades_loop (colors : gmap string string)
    (names : list string) : design_exn + list Padding :=
  match names with
  | [] => inr []
  | name :: names =>
      match colors !! name with
      | None => inl (KeyError name)
      | Some encoded =>
          match parse encoded with
          | None => inl InvalidColorError
          | Some color =>
              let background := with_alpha color 1.0 in
              let foreground :=
                color_add background (get_contrast_text background 0.9) in
              let text := "$" +:+ name in
              match make_shades_loop colors names with
              | inl e => inl e
              | inr rest =>
                  inr ({| padding_text := text;
                          padding_pad := 1;
                          padding_style :=
                            hex6 foreground +:+ " on " +:+ hex6 background |}
                       :: rest)
              end
          end
      end
  end.

(** [make_shades], design.py lines 234-243. *)
Definition make_shades (system : ColorSystem.t) : design_exn + list Padding :=
  match generate system with
  | None => inl InvalidColorError
  | Some colors => make_shades_loop colors (shades system)
  end.

(** [show_design], design.py lines 223-249. *)
Definition show_design (light dark : ColorSystem.t) : design_exn + Table :=
  match make_shades light with
  | inl e => inl e
  | inr light_shades =>
      match make_shades dark with
      | inl e => inl e
      | inr dark_shades =>
          inr {| table_columns := [("Light", "center"); ("Dark", "center")];
                 table_rows := [[light_shades; dark_shades]] |}
      end
  end.
End show_design.

(** ** More vocabulary *)

Section more_vocabulary.
Context `{ColorOps}.

(** The five tri-state attributes of a style. *)
Definition attributes : list (Style.t → option bool) :=
  [Style.bold; Style.dim; Style.italic; Style.underline; Style.strike].

(** An optional colour argument of [ColorSystem(...)] and the attribute
    it becomes: an omitted argument stays [None], a given one is parsed. *)
Definition parsed_as (argument : option string) (value : option Color) : Prop :=
  match argument, value with
  | None, None => True
  | Some text, Some color => parse text = Some color
  | _, _ => False
  end.



(** The colour system with another [text_alpha]. *)
Definition with_text_alpha (self : ColorSystem.t) (text_alpha : float) :
    ColorSystem.t :=
  ColorSystem.ColorSystem (ColorSystem.primary self)
    (ColorSystem.secondary self) (ColorSystem.warning self)
    (ColorSystem.error self) (ColorSystem.success self)
    (ColorSystem.accent self) (ColorSystem.foreground self)
    (ColorSystem.background self) (ColorSystem.surface self)
    (ColorSystem.panel self) (ColorSystem.boost self) (ColorSystem.dark self)
    (ColorSystem.luminosity_spread self) text_alpha.
End more_vocabulary.

(** ** More example values *)

Module Samples.
Import ColorModel.
Local Open Scope float_scope.

Definition red : color := opaque_rgb 255 0 0.
Definition green : color := opaque_rgb 0 128 0.
Definition navy : color := opaque_rgb 0 0 128.

(** [Style(red, green, bold=True)], [Style(green, dim=True, bold=False)]
    and [Style(navy, navy, link="https://textual.textualize.io")]. *)
Definition loud : Style.t :=
  Style.Style red green (Some true) None None None None None None.

Definition quiet : Style.t :=
  Style.Style green model_TRANSPARENT (Some false) (Some true) None None None
    None None.

Definition linked : Style.t :=
  Style.Style navy navy None None None None None
    (Some "https://textual.textualize.io") None.

(** [ColorSystem("#004578", warning="#ffa500", boost="#112233")] *)
Definition opaque_system : ColorSystem.t :=
  ColorSystem.ColorSystem (opaque_rgb 0 69 120) None
    (Some (opaque_rgb 255 165 0)) None None None None None None None
    (Some (opaque_rgb 17 34 51)) false 0.15 0.95.
End Samples.

(** * Properties *)

(** ** Assignments to a dictionary *)

Lemma assign_all_app (colors : gmap string string) l1 l2 :
  assign_all colors (l1 ++ l2) = assign_all (assign_all colors l1) l2.
Proof. apply foldl_app. Qed.

Lemma assign_all_snoc (colors : gmap string string) l k v :
  assign_all colors (l ++ [(k, v)]) = <[k := v]> (assign_all colors l).
Proof. by rewrite assign_all_app. Qed.

Lemma assign_all_list_to_map l :
  assign_all ∅ l = list_to_map (reverse l).
Proof.
  induction l as [|[k v] l IH] using rev_ind; first done.
  by rewrite assign_all_snoc, reverse_snoc, IH.
Qed.

(** With distinct keys, a dictionary holds exactly what was assigned. *)
Lemma assign_all_lookup l k v :
  NoDup l.*1 → (k, v) ∈ l → assign_all ∅ l !! k = Some v.
Proof.
  intros Hnd Hin. rewrite assign_all_list_to_map.
  apply elem_of_list_to_map_1.
  - by rewrite fmap_reverse, reverse_Permutation.
  - by apply elem_of_reverse.
Qed.

Lemma assign_all_dom l :
  dom (assign_all ∅ l) = list_to_set l.*1.
Proof.
  rewrite assign_all_list_to_map, dom_list_to_map_L, fmap_reverse.
  apply set_eq. intros k. by rewrite !elem_of_list_to_set, elem_of_reverse.
Qed.

Lemma assign_all_size l :
  NoDup l.*1 → size (assign_all ∅ l) = length l.
Proof.
  intros Hnd. rewrite assign_all_list_to_map, map_size_list_to_map.
  - apply length_reverse.
  - by rewrite fmap_reverse, reverse_Permutation.
Qed.


(** ** [generate] as a sequence of assignments *)

Section generate_facts.
Context `{ColorOps}.

Lemma shade_assign background spread is_dark_shade name color colors
    shade_name luminosity_delta :
  shade background spread is_dark_shade name color colors
    (shade_name, luminosity_delta)
  = <[name +:+ shade_name :=
        shade_hex background spread is_dark_shade color luminosity_delta]>
      colors.
Proof. unfold shade, shade_hex, dark_shade. by repeat case_match. Qed.

Lemma shade_loop_assign dark spread background COLORS colors :
  shade_loop dark spread background COLORS colors
  = assign_all colors (shade_entries dark spread background COLORS).
Proof.
  unfold shade_loop, shade_entries. revert colors.
  induction COLORS as [|[name color] COLORS IH]; intros colors; first done.
  cbn [foldl]. rewrite IH, bind_cons, assign_all_app. f_equal.
  generalize (luminosity_range spread) as items. intros items. revert colors.
  induction items as [|[shade_name delta] items IHitems]; intros colors;
    first done.
  cbn [foldl]. rewrite shade_assign, IHitems. done.
Qed.

Lemma palette_assign self r :
  palette self r = assign_all ∅ (entries self r).
Proof.
  unfold palette, entries. rewrite assign_all_app, shade_loop_assign.
  unfold derived_entries, assign_all at 1. cbn [foldl fst snd].
  by destruct (ansi (Resolved.foreground r)).
Qed.

Lemma luminosity_range_indices spread :
  luminosity_range spread
  = (λ n, (shade_suffix n, shade_delta spread n)) <$> shade_indices.
Proof. reflexivity. Qed.

Lemma entries_keys self r : (entries self r).*1 = palette_keys.
Proof. reflexivity. Qed.

Lemma palette_keys_NoDup : NoDup palette_keys.
Proof. apply (bool_decide_unpack _). by vm_compute. Qed.

Lemma palette_keys_length : length palette_keys = 100%nat.
Proof. reflexivity. Qed.
End generate_facts.

(** ** The fallback chain *)

Section resolve_facts.
Context `{ColorOps}.

Lemma parse_default_background (dark : bool) :
  is_Some (parse (if dark then DEFAULT_DARK_BACKGROUND
                  else DEFAULT_LIGHT_BACKGROUND)).
Proof.
  pose proof parse_defaults as Hd. rewrite !Forall_cons in Hd.
  destruct Hd as (? & ? & ? & ? & _). by destruct dark.
Qed.

Lemma parse_default_surface (dark : bool) :
  is_Some (parse (if dark then DEFAULT_DARK_SURFACE
                  else DEFAULT_LIGHT_SURFACE)).
Proof.
  pose proof parse_defaults as Hd. rewrite !Forall_cons in Hd.
  destruct Hd as (? & ? & ? & ? & _). by destruct dark.
Qed.

(** [generate] never raises. *)
Lemma resolve_total self : is_Some (resolve self).
Proof.
  destruct (parse_default_background (ColorSystem.dark self)) as [b Hb].
  destruct (parse_default_surface (ColorSystem.dark self)) as [s Hs].
  unfold resolve.
  destruct (ColorSystem.dark self), (ColorSystem.background self),
    (ColorSystem.surface self); simpl; rewrite ?Hb, ?Hs; simpl; eauto.
Qed.

Lemma generate_resolve self r :
  resolve self = Some r → generate self = Some (palette self r).
Proof. intros Hr. unfold generate. by rewrite Hr. Qed.

Lemma generate_total self : is_Some (generate self).
Proof.
  destruct (resolve_total self) as [r Hr].
  rewrite (generate_resolve _ _ Hr). eauto.
Qed.

(** C4: the colours [generate] works with are the seed colours, where
    given, and otherwise: secondary, warning and accent fall back to
    primary; error and success to the resolved secondary; background and
    surface to the parsed built-in default the dark flag selects; foreground
    to [background.inverse]; boost to
    [background.get_contrast_text(1.0).with_alpha(0.04)]; panel to
    [surface.blend(primary, 0.1)] (called with [alpha=1]), with boost
    composited on top of that fallback exactly when dark is true. *)
Theorem generate_fallback_chain self :
  ∃ r default_background default_surface,
    resolve self = Some r
    ∧ generate self = Some (palette self r)
    ∧ parse (if ColorSystem.dark self then DEFAULT_DARK_BACKGROUND
             else DEFAULT_LIGHT_BACKGROUND) = Some default_background
    ∧ parse (if ColorSystem.dark self then DEFAULT_DARK_SURFACE
             else DEFAULT_LIGHT_SURFACE) = Some default_surface
    ∧ Resolved.primary r = ColorSystem.primary self
    ∧ Resolved.secondary r
      = default (Resolved.primary r) (ColorSystem.secondary self)
    ∧ Resolved.warning r
      = default (Resolved.primary r) (ColorSystem.warning self)
    ∧ Resolved.error r
      = default (Resolved.secondary r) (ColorSystem.error self)
    ∧ Resolved.success r
      = default (Resolved.secondary r) (ColorSystem.success self)
    ∧ Resolved.accent r
      = default (Resolved.primary r) (ColorSystem.accent self)
    ∧ Resolved.background r
      = default default_background (ColorSystem.background self)
    ∧ Resolved.surface r
      = default default_surface (ColorSystem.surface self)
    ∧ Resolved.foreground r
      = default (inverse (Resolved.background r)) (ColorSystem.foreground self)
    ∧ Resolved.boost r
      = default (with_alpha (get_contrast_text (Resolved.background r) 1.0) 0.04)
          (ColorSystem.boost self)
    ∧ Resolved.panel r
      = default
          (let blended :=
             blend (Resolved.surface r) (Resolved.primary r) 0.1 1.0 in
           if ColorSystem.dark self then color_add blended (Resolved.boost r)
           else blended)
          (ColorSystem.panel self).
Proof.
  destruct (parse_default_background (ColorSystem.dark self)) as [b Hb].
  destruct (parse_default_surface (ColorSystem.dark self)) as [s Hs].
  assert (∃ r, resolve self = Some r ∧ r = r) as (r & Hr & _).
  { destruct (resolve_total self) as [r Hr]. eauto. }
  exists r, b, s. rewrite (generate_resolve _ _ Hr).
  split_and!; try done;
    revert Hr; unfold resolve;
    destruct (ColorSystem.dark self), (ColorSystem.background self),
      (ColorSystem.surface self); simpl; rewrite ?Hb, ?Hs; simpl;
    intros [= <-]; simpl; try done;
    by destruct (ColorSystem.panel self).
Qed.
End resolve_facts.

(** ** The generated palette *)

Section palette_facts.
Context `{ColorOps}.

(** What [generate] stores under a shade key. *)
Lemma palette_shade_lookup self r name color n :
  (name, color) ∈ COLORS r →
  n ∈ shade_indices →
  palette self r !! (name +:+ shade_suffix n)
  = Some (shade_hex (Resolved.background r) (ColorSystem.luminosity_spread self)
            (ColorSystem.dark self && bool_decide (name ∈ DARK_SHADES))
            color (shade_delta (ColorSystem.luminosity_spread self) n)).
Proof.
  intros Hcolor Hn. rewrite palette_assign. apply assign_all_lookup.
  { rewrite entries_keys. apply palette_keys_NoDup. }
  unfold entries. apply elem_of_app. left.
  unfold shade_entries. apply list_elem_of_bind.
  exists (name, color). split; last done.
  apply list_elem_of_bind.
  exists (shade_suffix n, shade_delta (ColorSystem.luminosity_spread self) n).
  split; first by apply list_elem_of_singleton.
  rewrite luminosity_range_indices. apply list_elem_of_fmap. eauto.
Qed.

Lemma palette_dom self r : dom (palette self r) = list_to_set palette_keys.
Proof. by rewrite palette_assign, assign_all_dom, entries_keys. Qed.

Lemma palette_size self r : size (palette self r) = 100%nat.
Proof.
  rewrite palette_assign, assign_all_size.
  - by rewrite <-(length_fmap fst), entries_keys.
  - rewrite entries_keys. apply palette_keys_NoDup.
Qed.

Lemma palette_is_key self r key :
  is_Some (palette self r !! key) ↔ key ∈ palette_keys.
Proof. by rewrite <-elem_of_dom, palette_dom, elem_of_list_to_set. Qed.

(** C5: whatever the seed fields, [generate] returns a mapping whose keys
    are exactly the seven shade keys of each of the thirteen colour names
    together with the nine derived tokens; these 100 keys are pairwise
    distinct, so the mapping has exactly 100 entries. *)
Theorem generate_keys self :
  ∃ colors,
    generate self = Some colors
    ∧ dom colors = list_to_set ((shaded_names ≫= shade_keys) ++ derived_tokens)
    ∧ NoDup ((shaded_names ≫= shade_keys) ++ derived_tokens)
    ∧ length shaded_names = 13%nat
    ∧ Forall (λ name, length (shade_keys name) = 7%nat) shaded_names
    ∧ shade_suffix <$> shade_indices
      = ["-darken-3"; "-darken-2"; "-darken-1"; ""; "-lighten-1";
         "-lighten-2"; "-lighten-3"]
    ∧ length derived_tokens = 9%nat
    ∧ size colors = 100%nat.
Proof.
  destruct (resolve_total self) as [r Hr].
  exists (palette self r). split; first by apply generate_resolve.
  split; first apply palette_dom.
  split; first apply palette_keys_NoDup.
  split; first done.
  split; first by repeat constructor.
  split; first done.
  split; first done.
  apply palette_size.
Qed.

(** C6: when the resolved colour of one of the thirteen shaded names is a
    fixed-palette (ANSI) colour, each of the seven shade entries of that
    name holds the [hex] of the colour itself. *)
Theorem generate_ansi_shades self r name color index n :
  resolve self = Some r →
  (name, color) ∈ COLORS r →
  ansi color = Some index →
  n ∈ shade_indices →
  ∃ colors,
    generate self = Some colors
    ∧ colors !! (name +:+ shade_suffix n) = Some (hex color).
Proof.
  intros Hr Hcolor Hansi Hn. exists (palette self r).
  split; first by apply generate_resolve.
  rewrite (palette_shade_lookup _ _ _ color) by done.
  unfold shade_hex. by rewrite Hansi.
Qed.


End palette_facts.

(** ** The names yielded by [shades] *)

Section shades_facts.
Context `{ColorOps}.

Lemma shades_keys self : shades self = COLOR_NAMES ≫= shade_keys.
Proof. reflexivity. Qed.

(** C10: every name [shades] yields is a key of the mapping [generate]
    returns; [shades] yields the seven shade keys of each of the twelve
    names of [COLOR_NAMES], 84 names in all; [foreground] is the one shaded
    name missing from [COLOR_NAMES], and none of its seven shade keys, all
    of which [generate] emits, is yielded by [shades]. *)
Theorem shades_generated self :
  ∃ colors,
    generate self = Some colors
    ∧ Forall (λ name, is_Some (colors !! name)) (shades self)
    ∧ shades self = COLOR_NAMES ≫= shade_keys
    ∧ length COLOR_NAMES = 12%nat
    ∧ length (shades self) = 84%nat
    ∧ list_difference shaded_names COLOR_NAMES = ["foreground"]
    ∧ ("foreground" ∉ COLOR_NAMES)
    ∧ Forall (λ key, (key ∉ shades self) ∧ is_Some (colors !! key))
        (shade_keys "foreground").
Proof.
  destruct (resolve_total self) as [r Hr].
  exists (palette self r). split; first by apply generate_resolve.
  split.
  { apply Forall_forall. intros name Hname. apply palette_is_key.
    revert name Hname. apply Forall_forall.
    rewrite shades_keys. apply (bool_decide_unpack _). by vm_compute. }
  split; first done.
  split; first done.
  split; first done.
  split; first done.
  split; first by apply (bool_decide_unpack _).
  apply Forall_forall. intros key Hkey. split.
  - revert key Hkey. apply Forall_forall.
    rewrite shades_keys. apply (bool_decide_unpack _). by vm_compute.
  - apply palette_is_key. revert key Hkey. apply Forall_forall.
    apply (bool_decide_unpack _). by vm_compute.
Qed.
End shades_facts.

(** ** Styles *)

Section style_facts.
Context `{ColorOps}.

(** [over]'s value if it is set, else [under]'s. *)
Lemma if_none_set {A} (under over : option A) :
  Style.if_none under over
  = match over with
    | Some value => Some value
    | None => under
    end.
Proof. by destruct over. Qed.

(** C1: painting [B] over [A] composites the backgrounds, takes [B]'s
    foreground unless it is fully transparent (then [A]'s), and takes each
    of bold, dim, italic, underline, strike, link and the metadata from [B]
    when [B] sets it and from [A] otherwise. *)
Theorem add_fields (A B : Style.t) :
  let set_or_else {T} (over under : option T) : option T :=
    match over with
    | Some value => Some value
    | None => under
    end in
  Style.background (Style.add A B)
  = color_add (Style.background A) (Style.background B)
  ∧ Style.foreground (Style.add A B)
    = (if is_transparent (Style.foreground B) then Style.foreground A
       else Style.foreground B)
  ∧ Style.bold (Style.add A B) = set_or_else (Style.bold B) (Style.bold A)
  ∧ Style.dim (Style.add A B) = set_or_else (Style.dim B) (Style.dim A)
  ∧ Style.italic (Style.add A B)
    = set_or_else (Style.italic B) (Style.italic A)
  ∧ Style.underline (Style.add A B)
    = set_or_else (Style.underline B) (Style.underline A)
  ∧ Style.strike (Style.add A B)
    = set_or_else (Style.strike B) (Style.strike A)
  ∧ Style.link (Style.add A B) = set_or_else (Style.link B) (Style.link A)
  ∧ Style._meta (Style.add A B)
    = set_or_else (Style._meta B) (Style._meta A).
Proof. simpl. by rewrite !if_none_set. Qed.

(** C2, at the failing input [Style(underline=True)]: [without_color]
    resets both colours to transparent and keeps bold, dim, italic, strike,
    link and the metadata of any style, but it returns a style whose
    underline is unset, while the input has it set. *)
Theorem without_color_drops_underline :
  let S := Style.Style TRANSPARENT TRANSPARENT None None None (Some true)
             None None None in
  Style.underline S = Some true
  ∧ Style.underline (Style.without_color S) = None
  ∧ ∀ S' : Style.t,
      Style.underline (Style.without_color S') = None
      ∧ Style.background (Style.without_color S') = TRANSPARENT
      ∧ Style.foreground (Style.without_color S') = TRANSPARENT
      ∧ Style.bold (Style.without_color S') = Style.bold S'
      ∧ Style.dim (Style.without_color S') = Style.dim S'
      ∧ Style.italic (Style.without_color S') = Style.italic S'
      ∧ Style.strike (Style.without_color S') = Style.strike S'
      ∧ Style.link (Style.without_color S') = Style.link S'
      ∧ Style._meta (Style.without_color S') = Style._meta S'.
Proof. simpl. by split_and!. Qed.

Lemma sum_foldl (styles : list Style.t) (start : Style.t) :
  Style.sum styles start = foldl Style.add start styles.
Proof.
  revert start. induction styles as [|style styles IH]; intros start;
    first done.
  simpl. by rewrite IH.
Qed.

(** C8: on a sequence with first element [first] and remaining elements
    [rest], [Style.combine] returns the left-to-right fold of [+] over
    [rest] starting from [first], each style entering the fold once; for
    [[A; B; C]] this is [(A + B) + C]. *)
Theorem combine_fold (first : Style.t) (rest : list Style.t) :
  Style.combine (first :: rest) = Some (foldl Style.add first rest)
  ∧ ∀ A B C : Style.t,
      Style.combine [A; B; C] = Some (Style.add (Style.add A B) C).
Proof.
  split.
  - unfold Style.combine. simpl. by rewrite sum_foldl.
  - done.
Qed.
End style_facts.

(** ** Discovery of visuals *)

Section textualize_facts.
Context {Visual : Type}.

(** C9: [textualize(obj)] returns [None], and does not raise, when
    [obj] has no [textualize] attribute, and when calling that attribute
    returns a value that is not a [Visual]; when the call returns a
    [Visual], [textualize] returns that visual. *)
Theorem textualize_discovery (obj : object Visual) :
  (attribute Visual obj "textualize" = Ok None →
   textualize Visual obj = Ok None)
  ∧ (∀ method value,
       attribute Visual obj "textualize" = Ok (Some method) →
       call0 Visual method = Ok value →
       isinstance_Visual Visual value = None →
       textualize Visual obj = Ok None)
  ∧ (∀ method value visual,
       attribute Visual obj "textualize" = Ok (Some method) →
       call0 Visual method = Ok value →
       isinstance_Visual Visual value = Some visual →
       textualize Visual obj = Ok (Some visual)).
Proof.
  unfold textualize, getattr. split_and!.
  - by intros ->.
  - intros method value -> Hcall Hvalue. unfold py_or.
    destruct method; first done.
    unfold is_None. by rewrite Hcall, Hvalue.
  - intros method value visual -> Hcall Hvalue. unfold py_or.
    destruct method; first done.
    unfold is_None. by rewrite Hcall, Hvalue.
Qed.
End textualize_facts.

(** ** The properties on the example values *)

Section examples.
Import ColorModel Examples.
Local Open Scope float_scope.

Lemma dark_ansi_init :
  ColorSystem.init "ansi_red" None None None None None None None None None
    None true 0.15 0.95
  = Some dark_ansi.
Proof. reflexivity. Qed.





(** [ColorSystem("#004578", dark=True)]: the entry
    [primary-background-darken-1] is the [hex] of the blend formula, and
    differs from that of the plain lightening. *)
Lemma dark_blue_background_shade :
  resolve dark = Some dark_resolved
  ∧ ∃ colors,
      generate dark = Some colors
      ∧ colors !! "primary-background-darken-1"
        = Some (hex (clamped
                       (blend
                          (blend (Resolved.background dark_resolved) blue
                             0.15 1.0)
                          WHITE (0.15 + -1 * (0.15 / 2)) 1.0)))
      ∧ colors !! "primary-background-darken-1" = Some "#2a333a"
      ∧ hex (lighten blue (-1 * (0.15 / 2))) ≠ "#2a333a".
Proof.
  split; first done. exists (palette dark dark_resolved).
  split; first done.
  assert (palette dark dark_resolved !! "primary-background-darken-1"
          = Some "#2a333a") as Hstored by (by vm_compute).
  split; [by rewrite Hstored; vm_compute|].
  split; [exact Hstored | by vm_compute].
Qed.


Lemma generate_ansi_shades_witness :
  resolve dark_ansi = Some dark_ansi_resolved
  ∧ ("secondary-background", ansi_red) ∈ COLORS dark_ansi_resolved
  ∧ ansi ansi_red = Some 1%Z
  ∧ 3%Z ∈ shade_indices
  ∧ ∃ colors,
      generate dark_ansi = Some colors
      ∧ colors !! "secondary-background-lighten-3" = Some "ansi_red".
Proof.
  split; [reflexivity|]. split; [repeat constructor|].
  split; [reflexivity|]. split; [repeat constructor|].
  apply (@generate_ansi_shades model dark_ansi dark_ansi_resolved
           "secondary-background" ansi_red 1%Z 3%Z);
    [reflexivity | repeat constructor | reflexivity | repeat constructor].
Defined.


Lemma textualize_discovery_witness :
  (attribute string plain "textualize" = Ok None
   ∧ textualize string plain = Ok None)
  ∧ (attribute string (with_textualize plain) "textualize"
     = Ok (Some (method plain))
     ∧ call0 string (method plain) = Ok plain
     ∧ isinstance_Visual string plain = None
     ∧ textualize string (with_textualize plain) = Ok None)
  ∧ (attribute string (with_textualize a_visual) "textualize"
     = Ok (Some (method a_visual))
     ∧ call0 string (method a_visual) = Ok a_visual
     ∧ isinstance_Visual string a_visual = Some "visual"
     ∧ textualize string (with_textualize a_visual) = Ok (Some "visual")).
Proof.
  split; [|split].
  - split; [reflexivity|].
    apply (proj1 (textualize_discovery plain)). reflexivity.
  - split; [reflexivity|]. split; [reflexivity|]. split; [reflexivity|].
    apply (proj1 (proj2 (textualize_discovery (with_textualize plain)))
             (method plain) plain); reflexivity.
  - split; [reflexivity|]. split; [reflexivity|]. split; [reflexivity|].
    apply (proj2 (proj2 (textualize_discovery (with_textualize a_visual)))
             (method a_visual) a_visual "visual"); reflexivity.
Defined.
End examples.

(** * Further properties of the code *)

(** ** Composition of styles *)

Section add_facts.
Context `{ColorOps}.

Lemma if_none_assoc {T} (a b c : option T) :
  Style.if_none (Style.if_none a b) c = Style.if_none a (Style.if_none b c).
Proof. by destruct c, b. Qed.

(** X1: painting is associative as soon as compositing the three
    backgrounds is: [(A + B) + C] and [A + (B + C)] are then the same
    style. *)
Theorem add_assoc (A B C : Style.t) :
  color_add (color_add (Style.background A) (Style.background B))
    (Style.background C)
  = color_add (Style.background A)
      (color_add (Style.background B) (Style.background C)) →
  Style.add (Style.add A B) C = Style.add A (Style.add B C).
Proof.
  intros Hbackground. unfold Style.add. simpl.
  rewrite Hbackground, !if_none_assoc. f_equal.
  destruct (is_transparent (Style.foreground C)) eqn:HC; first done.
  by rewrite HC.
Qed.

(** X2: painting the empty style [Style()] over a style changes
    nothing, given that the default colour is transparent and that
    compositing it over the background leaves the background as it is. *)
Theorem add_default_r (A : Style.t) :
  is_transparent TRANSPARENT = true →
  color_add (Style.background A) TRANSPARENT = Style.background A →
  Style.add A Style.default = A.
Proof.
  intros Htransparent Hbackground. destruct A. unfold Style.add. simpl in *.
  by rewrite Htransparent, Hbackground.
Qed.

(** X3: the order of painting matters: when two styles set one of the
    tri-state attributes to different values, painting them in the two
    orders gives different styles. *)
Theorem add_not_commutative (A B : Style.t) (attribute : Style.t → option bool)
    (a b : bool) :
  attribute ∈ attributes →
  attribute A = Some a →
  attribute B = Some b →
  a ≠ b →
  Style.add A B ≠ Style.add B A.
Proof.
  intros Hattribute HA HB Hne Heq.
  assert (attribute (Style.add A B) = Some b
          ∧ attribute (Style.add B A) = Some a) as [HAB HBA].
  { unfold attributes in Hattribute.
    repeat (apply elem_of_cons in Hattribute as [->|Hattribute]);
      [..|by apply elem_of_nil in Hattribute];
      simpl; by rewrite HA, HB. }
  rewrite Heq in HAB. congruence.
Qed.

(** X4: painting [B.without_color] over [A] leaves the foreground of [A]
    (the default colour being transparent) and composites the default
    colour over its background; bold, dim, italic, strike, link and the
    metadata come from [B] where [B] sets them; the underline of [A] is
    kept whatever [B] sets. *)
Theorem add_without_color (A B : Style.t) :
  is_transparent TRANSPARENT = true →
  Style.add A (Style.without_color B)
  = Style.Style
      (color_add (Style.background A) TRANSPARENT)
      (Style.foreground A)
      (Style.if_none (Style.bold A) (Style.bold B))
      (Style.if_none (Style.dim A) (Style.dim B))
      (Style.if_none (Style.italic A) (Style.italic B))
      (Style.underline A)
      (Style.if_none (Style.strike A) (Style.strike B))
      (Style.if_none (Style.link A) (Style.link B))
      (Style.if_none (Style._meta A) (Style._meta B)).
Proof. intros Htransparent. unfold Style.add. simpl. by rewrite Htransparent. Qed.
End add_facts.

(** ** Combining a sequence of styles *)

Section combine_facts.
Context `{ColorOps}.

Lemma combine_cons (first : Style.t) (rest : list Style.t) :
  Style.combine (first :: rest) = Some (foldl Style.add first rest).
Proof. unfold Style.combine. simpl. by rewrite sum_foldl. Qed.

Lemma foldl_add_last {T} (field : Style.t → option T) :
  (∀ A B, field (Style.add A B) = Style.if_none (field A) (field B)) →
  ∀ rest first,
    field (foldl Style.add first rest) = last (omap field (first :: rest)).
Proof.
  intros Hfield rest.
  induction rest as [|style rest IH]; intros first.
  { simpl. by destruct (field first). }
  cbn [foldl]. rewrite IH. simpl. rewrite Hfield.
  destruct (field first), (field style); simpl; try done.
  all: by destruct (omap field rest).
Qed.

(** X5: in the combination of a non-empty sequence of styles, each of
    bold, dim, italic, underline, strike, link and the metadata has the
    value of the last style of the sequence that sets it, and is unset when
    no style sets it. *)
Theorem combine_last_set (first : Style.t) (rest : list Style.t) :
  ∃ combined,
    Style.combine (first :: rest) = Some combined
    ∧ Forall (λ attribute : Style.t → option bool,
                attribute combined = last (omap attribute (first :: rest)))
        attributes
    ∧ Style.link combined = last (omap Style.link (first :: rest))
    ∧ Style._meta combined = last (omap Style._meta (first :: rest)).
Proof.
  exists (foldl Style.add first rest).
  split; first apply combine_cons.
  split; [|split]; [|by apply foldl_add_last..].
  unfold attributes. repeat constructor; by apply foldl_add_last.
Qed.

(** X6: the foreground of the combination is the foreground of the last
    style after the first whose foreground is not transparent; when there
    is none, it is the foreground of the first style. *)
Theorem combine_foreground (first : Style.t) (rest : list Style.t) :
  ∃ combined,
    Style.combine (first :: rest) = Some combined
    ∧ Style.foreground combined
      = default (Style.foreground first)
          (last (filter (λ color, is_transparent color = false)
                   (Style.foreground <$> rest))).
Proof.
  exists (foldl Style.add first rest).
  split; first apply combine_cons.
  revert first. induction rest as [|style rest IH]; intros first; first done.
  cbn [foldl]. rewrite IH. rewrite fmap_cons, filter_cons. simpl.
  destruct (is_transparent (Style.foreground style)) eqn:Htransparent.
  - by case_decide.
  - case_decide; last done.
    destruct (filter _ (Style.foreground <$> rest)) as [|color colors]
      eqn:Hfilter; first done.
    rewrite last_cons_cons.
    destruct (last (color :: colors)) eqn:Hlast; first done.
    by apply last_None in Hlast.
Qed.

(** X7: [Style.combine] raises [StopIteration] exactly on the empty
    sequence; a single style is returned as it is; and combining a sequence
    in two stages, the combination of a prefix followed by the remaining
    styles, gives the combination of the whole sequence. *)
Theorem combine_stages :
  Style.combine [] = None
  ∧ (∀ styles : list Style.t, is_Some (Style.combine styles) ↔ styles ≠ [])
  ∧ (∀ style : Style.t, Style.combine [style] = Some style)
  ∧ (∀ (first : Style.t) (prefix suffix : list Style.t),
       Style.combine (first :: prefix ++ suffix)
       = combined ← Style.combine (first :: prefix);
         Style.combine (combined :: suffix)).
Proof.
  split; first done. split; [|split; first done].
  - intros [|first rest].
    + split; [by intros [? ?] | done].
    + rewrite combine_cons. split; [done | eauto].
  - intros first prefix suffix. rewrite !combine_cons. simpl.
    by rewrite combine_cons, foldl_app.
Qed.
End combine_facts.

(** ** Discovery of visuals: exceptions and the origin of the result *)

Section textualize_more.
Context {Visual : Type}.


(** X9: a visual returned by [textualize(obj)] always comes from the
    object: [obj] has a [textualize] attribute, calling it returns a value,
    and the result is that value, an instance of [Visual]. *)
Theorem textualize_origin (obj : object Visual) (visual : Visual) :
  textualize Visual obj = Ok (Some visual)
  ↔ ∃ method value,
      attribute Visual obj "textualize" = Ok (Some method)
      ∧ call0 Visual method = Ok value
      ∧ isinstance_Visual Visual value = Some visual.
Proof.
  unfold textualize, getattr, py_or.
  destruct (attribute Visual obj "textualize") as [[method|]|e'].
  - destruct method as [|as_visual attributes call].
    + simpl. split; first done. by intros (method & value & [= <-] & ? & _).
    + unfold is_None.
      destruct (call0 Visual (PyObject as_visual attributes call))
        as [value|e''] eqn:Hcall.
      * destruct (isinstance_Visual Visual value) as [v|] eqn:Hvalue.
        -- split.
           ++ intros [= ->]. eauto.
           ++ intros (method & value' & [= <-] & Hcall' & Hvalue').
              congruence.
        -- split; first done.
           intros (method & value' & [= <-] & Hcall' & Hvalue'). congruence.
      * split; first done.
        intros (method & value' & [= <-] & Hcall' & _). congruence.
  - simpl. split; first done. by intros (method & value & ? & _).
  - split; first done. by intros (method & value & ? & _).
Qed.
End textualize_more.

(** ** Construction of a colour system *)

Section init_facts.
Context `{ColorOps}.

Lemma parse_optional_parsed_as argument value :
  ColorSystem.parse_optional argument = Some value ↔ parsed_as argument value.
Proof.
  unfold ColorSystem.parse_optional, parsed_as.
  destruct argument as [text|], value as [color|]; simpl;
    try destruct (parse text); simpl; naive_solver.
Qed.

(** X10: [ColorSystem(...)] succeeds exactly when the primary colour
    and every optional colour that is given parse; the attributes are then
    the parsed colours, an omitted colour stays [None], and the flag and the
    two factors are stored as given.  One colour that does not parse makes
    the constructor raise. *)
Theorem init_parsed (primary : string)
    (secondary warning error success accent foreground background surface
     panel boost : option string)
    (dark : bool) (luminosity_spread text_alpha : float)
    (system : ColorSystem.t) :
  ColorSystem.init primary secondary warning error success accent foreground
    background surface panel boost dark luminosity_spread text_alpha
  = Some system
  ↔ parse primary = Some (ColorSystem.primary system)
    ∧ parsed_as secondary (ColorSystem.secondary system)
    ∧ parsed_as warning (ColorSystem.warning system)
    ∧ parsed_as error (ColorSystem.error system)
    ∧ parsed_as success (ColorSystem.success system)
    ∧ parsed_as accent (ColorSystem.accent system)
    ∧ parsed_as foreground (ColorSystem.foreground system)
    ∧ parsed_as background (ColorSystem.background system)
    ∧ parsed_as surface (ColorSystem.surface system)
    ∧ parsed_as panel (ColorSystem.panel system)
    ∧ parsed_as boost (ColorSystem.boost system)
    ∧ ColorSystem.dark system = dark
    ∧ ColorSystem.luminosity_spread system = luminosity_spread
    ∧ ColorSystem.text_alpha system = text_alpha.
Proof.
  rewrite <-!parse_optional_parsed_as. unfold ColorSystem.init. split.
  - intros Hinit.
    repeat
      match type of Hinit with
      | mbind _ ?value = Some _ =>
          destruct value; simpl in Hinit; [|discriminate Hinit]
      end.
    injection Hinit as <-. simpl. by split_and!.
  - intros (-> & -> & -> & -> & -> & -> & -> & -> & -> & -> & -> & <- & <- & <-).
    simpl. by destruct system.
Qed.
End init_facts.

(** ** More on the generated palette *)

Section palette_more.
Context `{ColorOps}.

Lemma palette_derived_lookup self r key value :
  (key, value) ∈ derived_entries self r →
  palette self r !! key = Some value.
Proof.
  intros Hin. rewrite palette_assign. apply assign_all_lookup.
  { rewrite entries_keys. apply palette_keys_NoDup. }
  unfold entries. apply elem_of_app. by right.
Qed.

Lemma resolve_seeds self r :
  resolve self = Some r →
  Resolved.primary r = ColorSystem.primary self
  ∧ Resolved.secondary r
    = default (ColorSystem.primary self) (ColorSystem.secondary self)
  ∧ Resolved.warning r
    = default (ColorSystem.primary self) (ColorSystem.warning self)
  ∧ Resolved.error r = default (Resolved.secondary r) (ColorSystem.error self)
  ∧ Resolved.success r
    = default (Resolved.secondary r) (ColorSystem.success self)
  ∧ Resolved.accent r
    = default (ColorSystem.primary self) (ColorSystem.accent self).
Proof.
  unfold resolve. intros Hr.
  destruct (if ColorSystem.dark self then _ else _) as [[background surface]|];
    last done.
  simpl in Hr. injection Hr as <-. simpl.
  split_and!; try done;
    by repeat match goal with |- context [py_or ?o _] => destruct o end.
Qed.

(** X11: the derived tokens of every palette.  [text], [text-muted] and
    [text-disabled] are [auto 87%], [auto 60%] and [auto 38%], or all three
    [ansi_default] when the resolved foreground is a fixed-palette colour;
    [border] and [highlight-cursor] are both the [hex] of the accent colour
    (the primary colour when no accent is given), which
    [highlight-cursor-blurred] takes at alpha 0.3; [border-blurred] is the
    [hex] of the surface; [highlight-hover] is boost at alpha 0.05; and
    [surface-active] is the surface lightened by [luminosity_spread / 3.5]. *)
Theorem generate_derived_tokens self :
  ∃ r colors,
    resolve self = Some r
    ∧ generate self = Some colors
    ∧ [colors !! "text"; colors !! "text-muted"; colors !! "text-disabled"]
      = (if ansi (Resolved.foreground r) is None
         then [Some "auto 87%"; Some "auto 60%"; Some "auto 38%"]
         else [Some "ansi_default"; Some "ansi_default"; Some "ansi_default"])
    ∧ Resolved.accent r
      = default (ColorSystem.primary self) (ColorSystem.accent self)
    ∧ colors !! "border" = Some (hex (Resolved.accent r))
    ∧ colors !! "highlight-cursor" = Some (hex (Resolved.accent r))
    ∧ colors !! "highlight-cursor-blurred"
      = Some (hex (with_alpha (Resolved.accent r) 0.3))
    ∧ colors !! "border-blurred" = Some (hex (Resolved.surface r))
    ∧ colors !! "highlight-hover"
      = Some (hex (with_alpha (Resolved.boost r) 0.05))
    ∧ colors !! "surface-active"
      = Some (hex (lighten (Resolved.surface r)
                     (ColorSystem.luminosity_spread self / 3.5))).
Proof.
  destruct (resolve_total self) as [r Hr].
  exists r, (palette self r). split; first done.
  split; first by apply generate_resolve.
  split.
  { pose (text (token : string) :=
            if ansi (Resolved.foreground r) is None then token
            else "ansi_default").
    rewrite (palette_derived_lookup self r "text" (text "auto 87%")),
      (palette_derived_lookup self r "text-muted" (text "auto 60%")),
      (palette_derived_lookup self r "text-disabled" (text "auto 38%"))
      by (unfold derived_entries; set_solver).
    unfold text. by destruct (ansi (Resolved.foreground r)). }
  split; first by apply resolve_seeds.
  split_and!; apply palette_derived_lookup; unfold derived_entries; set_solver.
Qed.

Lemma not_dark_shade (dark : bool) (name : string) :
  name ∈ shaded_names →
  name ≠ "primary-background" →
  name ≠ "secondary-background" →
  dark && bool_decide (name ∈ DARK_SHADES) = false.
Proof.
  intros _ Hp Hs. rewrite bool_decide_eq_false_2; first by destruct dark.
  unfold DARK_SHADES. set_solver.
Qed.

(** X12: outside dark mode the background variants are the colours
    themselves: every shade entry of [primary-background] equals the entry
    of [primary] with the same suffix, and likewise for
    [secondary-background] and [secondary]. *)
Theorem generate_light_backgrounds self n :
  ColorSystem.dark self = false →
  n ∈ shade_indices →
  ∃ colors,
    generate self = Some colors
    ∧ colors !! ("primary-background" +:+ shade_suffix n)
      = colors !! ("primary" +:+ shade_suffix n)
    ∧ colors !! ("secondary-background" +:+ shade_suffix n)
      = colors !! ("secondary" +:+ shade_suffix n).
Proof.
  intros Hdark Hn. destruct (resolve_total self) as [r Hr].
  exists (palette self r). split; first by apply generate_resolve.
  rewrite (palette_shade_lookup self r "primary-background"
             (Resolved.primary r) n),
    (palette_shade_lookup self r "primary" (Resolved.primary r) n),
    (palette_shade_lookup self r "secondary-background"
       (Resolved.secondary r) n),
    (palette_shade_lookup self r "secondary" (Resolved.secondary r) n);
    try done; try (unfold COLORS; set_solver).
  by rewrite Hdark.
Qed.

(** X13: an omitted seed colour gives the shades of its fallback: each
    shade entry of [secondary], [warning] and [accent] equals the entry of
    [primary] with the same suffix when that seed is not given, and each
    shade entry of [error] and [success] equals the entry of [secondary]
    when that seed is not given. *)
Theorem generate_omitted_seeds self n :
  n ∈ shade_indices →
  ∃ colors,
    generate self = Some colors
    ∧ (ColorSystem.secondary self = None →
       colors !! ("secondary" +:+ shade_suffix n)
       = colors !! ("primary" +:+ shade_suffix n))
    ∧ (ColorSystem.warning self = None →
       colors !! ("warning" +:+ shade_suffix n)
       = colors !! ("primary" +:+ shade_suffix n))
    ∧ (ColorSystem.accent self = None →
       colors !! ("accent" +:+ shade_suffix n)
       = colors !! ("primary" +:+ shade_suffix n))
    ∧ (ColorSystem.error self = None →
       colors !! ("error" +:+ shade_suffix n)
       = colors !! ("secondary" +:+ shade_suffix n))
    ∧ (ColorSystem.success self = None →
       colors !! ("success" +:+ shade_suffix n)
       = colors !! ("secondary" +:+ shade_suffix n)).
Proof.
  intros Hn. destruct (resolve_total self) as [r Hr].
  destruct (resolve_seeds self r Hr)
    as (Hprimary & Hsecondary & Hwarning & Herror & Hsuccess & Haccent).
  exists (palette self r). split; first by apply generate_resolve.
  rewrite (palette_shade_lookup self r "primary" (Resolved.primary r) n),
    (palette_shade_lookup self r "secondary" (Resolved.secondary r) n),
    (palette_shade_lookup self r "warning" (Resolved.warning r) n),
    (palette_shade_lookup self r "accent" (Resolved.accent r) n),
    (palette_shade_lookup self r "error" (Resolved.error r) n),
    (palette_shade_lookup self r "success" (Resolved.success r) n);
    try done; try (unfold COLORS; set_solver).
  rewrite !not_dark_shade by (try done; unfold shaded_names; set_solver).
  split_and!; intros Hnone;
    rewrite ?Hsecondary, ?Hwarning, ?Haccent, ?Herror, ?Hsuccess, ?Hprimary,
      ?Hnone; simpl; by rewrite ?Hsecondary, ?Hnone.
Qed.
End palette_more.

(** ** The unused factor *)

Section text_alpha_facts.
Context `{ColorOps}.

(** X15: [text_alpha] is stored by the constructor and read by nothing:
    changing it changes neither the palette [generate] returns, whose text
    tokens are fixed strings, nor the names of [shades]. *)
Theorem generate_ignores_text_alpha (self : ColorSystem.t) (text_alpha : float) :
  generate (with_text_alpha self text_alpha) = generate self
  ∧ shades (with_text_alpha self text_alpha) = shades self.
Proof. split; last done. by destruct self. Qed.
End text_alpha_facts.

(** ** The design table *)

Section show_design_facts.
Context `{ColorOps}.
Variable hex6 : Color → string.

Lemma shades_are_keys self r :
  Forall (λ name, is_Some (palette self r !! name)) (shades self).
Proof.
  apply Forall_forall. intros name Hname. apply palette_is_key.
  revert name Hname. apply Forall_forall.
  rewrite shades_keys. apply (bool_decide_unpack _). by vm_compute.
Qed.

Lemma make_shades_loop_present colors names :
  Forall (λ name, is_Some (colors !! name)) names →
  (∀ key, make_shades_loop hex6 colors names ≠ inl (KeyError key))
  ∧ (make_shades_loop hex6 colors names = inl InvalidColorError
     ↔ ∃ name encoded,
         name ∈ names ∧ colors !! name = Some encoded ∧ parse encoded = None)
  ∧ (∀ paddings,
       make_shades_loop hex6 colors names = inr paddings →
       padding_text <$> paddings = (λ name, "$" +:+ name) <$> names
       ∧ Forall (λ padding, padding_pad padding = 1) paddings).
Proof.
  induction 1 as [|name names [encoded Hencoded] _ (IHkey & IHparse & IHok)].
  { simpl. split; first done. split; last by intros ? [= <-].
    split; first done. intros (? & ? & Hin & _). by apply elem_of_nil in Hin. }
  cbn [make_shades_loop]. rewrite Hencoded.
  destruct (parse encoded) as [color|] eqn:Hparse.
  - destruct (make_shades_loop hex6 colors names) as [e|rest] eqn:Hrest.
    + split; first done. split; last done.
      rewrite IHparse. split.
      * intros (name' & encoded' & Hin & Hsome & Hnone).
        exists name', encoded'. split; last done. by apply elem_of_cons; right.
      * intros (name' & encoded' & Hin & Hsome & Hnone).
        apply elem_of_cons in Hin as [->|Hin]; first congruence. eauto.
    + split; first done. split.
      * split; first done.
        intros (name' & encoded' & Hin & Hsome & Hnone).
        apply elem_of_cons in Hin as [->|Hin]; first congruence.
        assert (@inr design_exn _ rest = inl InvalidColorError); last done.
        apply IHparse. eauto.
      * intros paddings [= <-]. destruct (IHok rest eq_refl) as [Htext Hpad].
        rewrite !fmap_cons, Htext. split; first done. by constructor.
  - split; first done. split; last done.
    split; last done. intros _. exists name, encoded.
    split; last done. apply list_elem_of_here.
Qed.

(** X14: building the design table never fails on a missing key: every
    name of [shades] is looked up in the palette of the same system, which
    has it.  [make_shades] raises exactly when [Color.parse] rejects the
    palette entry of one of the shade names; otherwise it yields one padded
    text per shade name, in the order of [shades], reading [$] followed by
    the name, 84 in all. *)
Theorem make_shades_lookups (system dark : ColorSystem.t) :
  ∃ colors,
    generate system = Some colors
    ∧ (∀ key, make_shades hex6 system ≠ inl (KeyError key))
    ∧ (∀ key, show_design hex6 system dark ≠ inl (KeyError key))
    ∧ (make_shades hex6 system = inl InvalidColorError
       ↔ ∃ name encoded,
           name ∈ shades system
           ∧ colors !! name = Some encoded
           ∧ parse encoded = None)
    ∧ (∀ paddings,
         make_shades hex6 system = inr paddings →
         padding_text <$> paddings = (λ name, "$" +:+ name) <$> shades system
         ∧ length paddings = 84%nat
         ∧ Forall (λ padding, padding_pad padding = 1) paddings).
Proof.
  destruct (resolve_total system) as [r Hr].
  destruct (resolve_total dark) as [r' Hr'].
  pose proof (make_shades_loop_present _ _ (shades_are_keys system r))
    as (Hkey & Hparse & Hok).
  pose proof (make_shades_loop_present _ _ (shades_are_keys dark r'))
    as (Hkey' & _ & _).
  exists (palette system r).
  split; first by apply generate_resolve.
  unfold show_design, make_shades.
  rewrite (generate_resolve _ _ Hr), (generate_resolve _ _ Hr').
  split; first exact Hkey. split.
  { intros key.
    destruct (make_shades_loop hex6 (palette system r) (shades system))
      as [e|light_shades] eqn:Hlight.
    { intros [= ->]. by apply (Hkey key). }
    destruct (make_shades_loop hex6 (palette dark r') (shades dark))
      as [e|dark_shades] eqn:Hdark; last discriminate.
    intros [= ->]. by apply (Hkey' key). }
  split; first exact Hparse.
  intros paddings Hpaddings. destruct (Hok _ Hpaddings) as [Htext Hpad].
  split; first exact Htext. split; last exact Hpad.
  rewrite <-(length_fmap padding_text), Htext, length_fmap. reflexivity.
Qed.
End show_design_facts.

(** ** The further properties on the example values *)

Section samples.
Import ColorModel Examples Samples.
Local Open Scope float_scope.

Lemma add_assoc_witness :
  color_add (color_add (Style.background loud) (Style.background quiet))
    (Style.background linked)
  = color_add (Style.background loud)
      (color_add (Style.background quiet) (Style.background linked))
  ∧ Style.add (Style.add loud quiet) linked
    = Style.add loud (Style.add quiet linked).
Proof.
  split; [reflexivity|].
  apply (@add_assoc model loud quiet linked). reflexivity.
Defined.

Lemma add_default_r_witness :
  is_transparent TRANSPARENT = true
  ∧ color_add (Style.background loud) TRANSPARENT = Style.background loud
  ∧ Style.add loud Style.default = loud.
Proof.
  split; [reflexivity|]. split; [reflexivity|].
  apply (@add_default_r model loud); reflexivity.
Defined.

Lemma add_not_commutative_witness :
  Style.bold ∈ attributes
  ∧ Style.bold loud = Some true
  ∧ Style.bold quiet = Some false
  ∧ true ≠ false
  ∧ Style.add loud quiet ≠ Style.add quiet loud.
Proof.
  split; [apply list_elem_of_here|]. split; [reflexivity|].
  split; [reflexivity|]. split; [discriminate|].
  apply (@add_not_commutative model loud quiet Style.bold true false);
    [apply list_elem_of_here | reflexivity | reflexivity | discriminate].
Defined.

Lemma add_without_color_witness :
  is_transparent TRANSPARENT = true
  ∧ Style.add loud (Style.without_color underlined)
    = Style.Style red green (Some true) None None None None None None.
Proof.
  split; [reflexivity|].
  apply (@add_without_color model loud underlined). reflexivity.
Defined.

Lemma generate_light_backgrounds_witness :
  ColorSystem.dark light = false
  ∧ 1%Z ∈ shade_indices
  ∧ ∃ colors,
      generate light = Some colors
      ∧ colors !! "primary-background-lighten-1"
        = colors !! "primary-lighten-1"
      ∧ colors !! "secondary-background-lighten-1"
        = colors !! "secondary-lighten-1".
Proof.
  split; [reflexivity|]. split; [repeat constructor|].
  apply (@generate_light_backgrounds model light 1%Z);
    [reflexivity | repeat constructor].
Defined.

Lemma generate_omitted_seeds_witness :
  (-2)%Z ∈ shade_indices
  ∧ ∃ colors,
      generate opaque_system = Some colors
      ∧ (ColorSystem.secondary opaque_system = None →
         colors !! "secondary-darken-2" = colors !! "primary-darken-2")
      ∧ (ColorSystem.warning opaque_system = None →
         colors !! "warning-darken-2" = colors !! "primary-darken-2")
      ∧ (ColorSystem.accent opaque_system = None →
         colors !! "accent-darken-2" = colors !! "primary-darken-2")
      ∧ (ColorSystem.error opaque_system = None →
         colors !! "error-darken-2" = colors !! "secondary-darken-2")
      ∧ (ColorSystem.success opaque_system = None →
         colors !! "success-darken-2" = colors !! "secondary-darken-2").
Proof.
  split; [repeat constructor|].
  apply (@generate_omitted_seeds model opaque_system (-2)%Z).
  repeat constructor.
Defined.
End samples.
